(** * SQL generation for the MDS provider database ([mds/db/sql.py])

    A shallow embedding of the statement builders of [mds.db.sql]:
    [on_conflict_statement], [insert_status_changes_from] and
    [insert_trips_from], together with the two module-level lists
    [_COMMON_INSERTS] and [_COMMON_SELECTS] they start from.

    Python lists are mutable objects, so the lists live in a store and the
    builders are written in a state-and-exception monad over that store;
    [list(x)] allocates a fresh object, [x.extend(ys)] updates one in place. *)

From Stdlib Require Import Strings.String Strings.Ascii.
From Stdlib Require Import ZArith Bool Arith Lia.
From stdpp Require Import base list.

Open Scope string_scope.
Set Warnings "-register-all".
Set Default Proof Using "Type".

(** ** Strings *)

(** The line feed and the double quote of the statement text. *)
Definition nl : string := String "010"%char EmptyString.
Definition dq : string := String "034"%char EmptyString.

(** [sep.join(xs)] on a list of [str]. *)
Definition str_join (sep : string) (xs : list string) : string :=
  String.concat sep xs.

(** [s.split(c)] for a one-character separator: the fields of [s]. *)
Fixpoint split_on (c : ascii) (s : string) : list string :=
  match s with
  | EmptyString => [EmptyString]
  | String a s' =>
      if Ascii.eqb a c then EmptyString :: split_on c s'
      else match split_on c s' with
           | [] => [String a EmptyString]
           | w :: ws => String a w :: ws
           end
  end.

(** The comma-separated fields of a joined column list. *)
Definition fields (s : string) : list string := split_on ","%char s.

(** [needle in hay]. *)
Definition Substring (needle hay : string) : Prop :=
  exists before after, hay = before ++ needle ++ after.

(** A string of spaces and line feeds only. *)
Fixpoint blank (s : string) : bool :=
  match s with
  | EmptyString => true
  | String a s' =>
      (Ascii.eqb a " "%char || Ascii.eqb a "010"%char) && blank s'
  end.

(** ** Versions *)

(** Modelled from the spec: the [Version] class of [mds.versions], which is
    not among the sources.  A version is a semantic-version value compared
    by major, then minor, then patch number, never as text. *)
Record Version : Type := mkVersion { major : nat; minor : nat; patch : nat }.

Definition Version_lt (a b : Version) : bool :=
  Nat.ltb (major a) (major b)
  || (Nat.eqb (major a) (major b)
      && (Nat.ltb (minor a) (minor b)
          || (Nat.eqb (minor a) (minor b) && Nat.ltb (patch a) (patch b)))).

Definition digit_of (a : ascii) : option nat :=
  let n := nat_of_ascii a in
  if Nat.leb 48 n && Nat.leb n 57 then Some (n - 48)%nat else None.

Fixpoint parse_digits (acc : nat) (s : string) : option nat :=
  match s with
  | EmptyString => Some acc
  | String a s' =>
      match digit_of a with
      | Some d => parse_digits (10 * acc + d)%nat s'
      | None => None
      end
  end.

Definition parse_nat (s : string) : option nat :=
  match s with
  | EmptyString => None
  | _ => parse_digits 0 s
  end.

(** Modelled from the spec: reading a version from its text
    [major.minor.patch], three decimal numbers. *)
Definition Version_parse (s : string) : option Version :=
  match split_on "."%char s with
  | [a; b; c] =>
      match parse_nat a, parse_nat b, parse_nat c with
      | Some x, Some y, Some z => Some (mkVersion x y z)
      | _, _, _ => None
      end
  | _ => None
  end.

(** The [version] keyword is a raw string or a [Version] value. *)
Inductive version_arg : Type :=
| VersionStr (s : string)
| VersionObj (v : Version).

(** ** Python values and exceptions *)

(** The values [on_conflict_update] may hold.  A [dict] keeps its items in
    insertion order, so it is the list of its items. *)
Inductive value : Type :=
| VNone
| VBool (b : bool)
| VInt (n : Z)
| VStr (s : string)
| VList (items : list value)
| VTuple (items : list value)
| VDict (items : list (value * value)).

(** Truth value of an object, as [if x:] tests it. *)
Definition truthy (x : value) : bool :=
  match x with
  | VNone => false
  | VBool b => b
  | VInt n => negb (Z.eqb n 0)
  | VStr s => negb (String.eqb s EmptyString)
  | VList items => negb (Nat.eqb (length items) 0)
  | VTuple items => negb (Nat.eqb (length items) 0)
  | VDict items => negb (Nat.eqb (length items) 0)
  end.

Definition is_tuple (x : value) : bool :=
  match x with VTuple _ => true | _ => false end.

Inductive exn : Type :=
| UnsupportedVersionError (version : Version)
| TypeError
| ValueError
| NameError.

Inductive result (A : Type) : Type :=
| Ok (a : A)
| Raise (e : exn).
Arguments Ok {A} a.
Arguments Raise {A} e.

(** Modelled from the spec: [Version(x)] accepts a raw string or a
    [Version] value; text that is not a version raises [ValueError]. *)
Definition Version_new (x : version_arg) : result Version :=
  match x with
  | VersionObj v => Ok v
  | VersionStr s =>
      match Version_parse s with
      | Some v => Ok v
      | None => Raise ValueError
      end
  end.

(** ** The store of list objects *)

Definition loc : Type := nat.
Abbreviation heap := (list (list string)).

(** Computations that read and update the store and may raise. *)
Definition M (A : Type) : Type := heap -> result A * heap.

Definition ret {A} (a : A) : M A := fun h => (Ok a, h).
Definition raise {A} (e : exn) : M A := fun h => (Raise e, h).
Definition bind {A B} (m : M A) (k : A -> M B) : M B :=
  fun h =>
    match m h with
    | (Ok a, h') => k a h'
    | (Raise e, h') => (Raise e, h')
    end.
Definition lift {A} (r : result A) : M A := fun h => (r, h).

Notation "x <- m ;; k" := (bind m (fun x => k))
  (at level 100, m at next level, right associativity).
Notation "m ;;; k" := (bind m (fun _ => k))
  (at level 100, right associativity).

(** A new list object holding [xs]. *)
Definition list_new (xs : list string) : M loc :=
  fun h => (Ok (length h), (h ++ [xs])%list).

(** The elements of the list object at [l]. *)
Definition list_get (l : loc) : M (list string) :=
  fun h =>
    match h !! l with
    | Some xs => (Ok xs, h)
    | None => (Raise NameError, h)
    end.

(** [list(x)]: a fresh list object with the elements of [x]. *)
Definition list_copy (l : loc) : M loc :=
  xs <- list_get l ;; list_new xs.

(** [x.extend(ys)]: the object at [l] grows in place. *)
Definition list_extend (l : loc) (ys : list string) : M unit :=
  fun h =>
    match h !! l with
    | Some xs => (Ok tt, <[l := (xs ++ ys)%list]> h)
    | None => (Raise NameError, h)
    end.

(** [sep.join(x)] on the list object at [l]. *)
Definition list_join (sep : string) (l : loc) : M string :=
  xs <- list_get l ;; ret (str_join sep xs).

(** ** Module-level lists *)

(** The two names are bound, at import time, to the first two objects. *)
Definition _COMMON_INSERTS : loc := 0.
Definition _COMMON_SELECTS : loc := 1.

Definition COMMON_INSERTS_init : list string :=
  [ "provider_id";
    "provider_name";
    "device_id";
    "vehicle_id";
    "vehicle_type";
    "propulsion_type" ].

(** Adjacent string literals are one literal: the fourth element is the
    concatenation of the two lines the source writes without a comma
    between them. *)
Definition COMMON_SELECTS_init : list string :=
  [ "cast(provider_id as uuid)";
    "provider_name";
    "cast(device_id as uuid)";
    "vehicle_id," ++
    "cast(vehicle_type as vehicle_types)";
    "cast(propulsion_type as propulsion_types[])" ].

(** The store once the module is imported. *)
Definition module_heap : heap := [COMMON_INSERTS_init; COMMON_SELECTS_init].

(** The module-level lists hold their initial elements. *)
Definition module_intact (h : heap) : Prop :=
  h !! _COMMON_INSERTS = Some COMMON_INSERTS_init
  /\ h !! _COMMON_SELECTS = Some COMMON_SELECTS_init.

(** Modelled from the spec: the table-name constants of [mds.schemas],
    which is not among the sources. *)
Definition STATUS_CHANGES : string := "status_changes".
Definition TRIPS : string := "trips".

(** ** The statement builders *)

(** Keyword arguments: the builders read [version] and
    [on_conflict_update] and ignore every other key. *)
Record kwargs : Type := mkKwargs {
  kw_version : option version_arg;
  kw_on_conflict_update : option value
}.

Definition no_kwargs : kwargs := mkKwargs None None.

(** The elements of a list of [str]; [sep.join] raises [TypeError] at the
    first element that is not one. *)
Fixpoint strs_of (xs : list value) : result (list string) :=
  match xs with
  | [] => Ok []
  | VStr s :: rest =>
      match strs_of rest with
      | Ok l => Ok (s :: l)
      | Raise e => Raise e
      end
  | _ :: _ => Raise TypeError
  end.

(** ** The shape of a statement *)

(** The statement text with [ws] wherever it separates two parts; with a
    single space for [ws] it is the one-line form
    [INSERT INTO "dest" (cols) SELECT exprs FROM "src" on_conflict ;]. *)
Definition statement_template (ws dest cols exprs src on_conflict : string)
    : string :=
  "INSERT INTO " ++ dq ++ dest ++ dq ++ ws ++
  "(" ++ cols ++ ")" ++ ws ++
  "SELECT " ++ exprs ++ ws ++
  "FROM " ++ dq ++ src ++ dq ++ ws ++
  on_conflict ++ ws ++
  ";".

(** The builders put every part on a line of its own, indented by four
    spaces, and surround the text with the same white space. *)
Definition layout : string := nl ++ "    ".

Definition rendered (dest cols exprs src on_conflict : string) : string :=
  layout ++ statement_template layout dest cols exprs src on_conflict ++ layout.

(** The column lists a call leaves behind for a version [v]. *)
Definition before_0_3_0 (v : Version) : bool := Version_lt v (mkVersion 0 3 0).

Definition status_change_inserts (v : Version) : list string :=
  (COMMON_INSERTS_init
   ++ ["event_type"; "event_type_reason"; "event_location"; "battery_pct"]
   ++ (if before_0_3_0 v
       then ["event_time"; "associated_trips"]
       else ["event_time"; "publication_time"; "associated_trip"]))%list.

Definition status_change_selects (v : Version) : list string :=
  (COMMON_SELECTS_init
   ++ ["cast(event_type as event_types)";
       "cast(event_type_reason as event_type_reasons)";
       "cast(event_location as jsonb)";
       "battery_pct"]
   ++ (if before_0_3_0 v
       then ["to_timestamp(event_time) at time zone 'UTC'";
             "cast(associated_trips as uuid[])"]
       else ["to_timestamp(cast(event_time as double precision) / 1000.0) at time zone 'UTC'";
             "to_timestamp(cast(publication_time as double precision) / 1000.0) at time zone 'UTC'";
             "cast(associated_trip as uuid)"]))%list.

Definition trip_inserts (v : Version) : list string :=
  (COMMON_INSERTS_init
   ++ ["trip_id"; "trip_duration"; "trip_distance"; "route"; "accuracy";
       "parking_verification_url"; "standard_cost"; "actual_cost"]
   ++ (if before_0_3_0 v
       then ["start_time"; "end_time"]
       else ["start_time"; "end_time"; "publication_time"]))%list.

Definition trip_selects (v : Version) : list string :=
  (COMMON_SELECTS_init
   ++ ["cast(trip_id as uuid)"; "trip_duration"; "trip_distance";
       "cast(route as jsonb)"; "accuracy";
       "parking_verification_url,standard_cost,actual_cost"]
   ++ (if before_0_3_0 v
       then ["to_timestamp(start_time) at time zone 'UTC'";
             "to_timestamp(end_time) at time zone 'UTC'"]
       else ["to_timestamp(cast(start_time as double precision) / 1000.0) at time zone 'UTC'";
             "to_timestamp(cast(end_time as double precision) / 1000.0) at time zone 'UTC'";
             "to_timestamp(cast(publication_time as double precision) / 1000.0) at time zone 'UTC'"]))%list.

(** ** A concrete release range, for running the builders *)

(** Versions from [lower] up to, and not including, [upper] are supported. *)
Definition outside_range (lower upper v : Version) : bool :=
  Version_lt v lower || negb (Version_lt v upper).

Definition v0_2_0 : Version := mkVersion 0 2 0.
Definition v0_5_0 : Version := mkVersion 0 5 0.

(** A printer that shows every object that is not a [str] the same way. *)
Definition opaque_str (x : value) : string := "<object>".

(** ** Predicates on values and texts *)

Definition is_str (x : value) : bool :=
  match x with VStr _ => true | _ => false end.

(** [needle in hay], decided. *)
Fixpoint is_substring (needle hay : string) : bool :=
  String.prefix needle hay
  || match hay with
     | EmptyString => false
     | String _ rest => is_substring needle rest
     end.

(** [s.endswith(suffix)]. *)
Definition ends_with (suffix s : string) : bool :=
  let n := String.length suffix in
  let m := String.length s in
  Nat.leb n m && String.eqb (substring (m - n) n s) suffix.

(** [P] holds of the elements of two lists position by position, as far
    as both lists go. *)
Fixpoint all2 (P : string -> string -> bool) (xs ys : list string) : bool :=
  match xs, ys with
  | x :: xs', y :: ys' => P x y && all2 P xs' ys'
  | _, _ => true
  end.

(** The two conversions of a time column: from seconds, and from
    milliseconds. *)
Definition seconds_expr (col : string) : string :=
  "to_timestamp(" ++ col ++ ") at time zone 'UTC'".

Definition millis_expr (col : string) : string :=
  "to_timestamp(cast(" ++ col
  ++ " as double precision) / 1000.0) at time zone 'UTC'".

(** A time column has the conversion of its era as its expression; any
    other column has an expression without [to_timestamp]. *)
Definition time_rule (before : bool) (c e : string) : bool :=
  if ends_with "_time" c
  then String.eqb e (if before then seconds_expr c else millis_expr c)
  else negb (is_substring "to_timestamp" e).

Section Sql.

(** The [unsupported] property of a version and the lowest supported
    version [Version.mds_lower()] belong to [mds.versions]; the release
    range they encode is left open. *)
Variable unsupported : Version -> bool.
Variable mds_lower : Version.

(** [str(x)] of an object that is not a [str], as the interpreter
    prints it. *)
Variable py_str : value -> string.

(** A replacement field [{x}] of an f-string. *)
Definition format (x : value) : string :=
  match x with
  | VStr s => s
  | _ => py_str x
  end.

Definition value_join (sep : string) (xs : list value) : M string :=
  l <- lift (strs_of xs) ;; ret (str_join sep l).

Definition on_conflict_statement (on_conflict_update : value) : M string :=
  if truthy on_conflict_update then
    match on_conflict_update with
    | VTuple items =>
        match items with
        | [condition; actions] =>
            actions <-
              match actions with
              | VList frags =>
                  s <- value_join "," frags ;; ret (VStr s)
              | VDict pairs =>
                  ret (VStr (str_join ","
                    (map (fun kv => format (fst kv) ++ " = " ++ format (snd kv))
                         pairs)))
              | _ => ret actions
              end ;;
            ret ("ON CONFLICT " ++ format condition
                 ++ " DO UPDATE SET " ++ format actions)
        | _ => raise ValueError
        end
    | _ => ret "ON CONFLICT DO NOTHING"
    end
  else ret "ON CONFLICT DO NOTHING".

Definition insert_status_changes_from
    (source_table : string) (dest_table : option string) (kw : kwargs)
    : M string :=
  let dest_table := default STATUS_CHANGES dest_table in
  version <- lift (Version_new (default (VersionObj mds_lower) (kw_version kw))) ;;
  if unsupported version then raise (UnsupportedVersionError version) else
  let on_conflict_update := default VNone (kw_on_conflict_update kw) in
  on_conflict <- on_conflict_statement on_conflict_update ;;
  inserts <- list_copy _COMMON_INSERTS ;;
  list_extend inserts [
    "event_type";
    "event_type_reason";
    "event_location";
    "battery_pct"
  ] ;;;
  selects <- list_copy _COMMON_SELECTS ;;
  list_extend selects [
    "cast(event_type as event_types)";
    "cast(event_type_reason as event_type_reasons)";
    "cast(event_location as jsonb)";
    "battery_pct"
  ] ;;;
  bound <- lift (Version_new (VersionStr "0.3.0")) ;;
  (if Version_lt version bound then
     list_extend inserts [
       "event_time";
       "associated_trips"
     ] ;;;
     list_extend selects [
       "to_timestamp(event_time) at time zone 'UTC'";
       "cast(associated_trips as uuid[])"
     ]
   else
     list_extend inserts [
       "event_time";
       "publication_time";
       "associated_trip"
     ] ;;;
     list_extend selects [
       "to_timestamp(cast(event_time as double precision) / 1000.0) at time zone 'UTC'";
       "to_timestamp(cast(publication_time as double precision) / 1000.0) at time zone 'UTC'";
       "cast(associated_trip as uuid)"
     ]) ;;;
  inserts <- list_join "," inserts ;;
  selects <- list_join "," selects ;;
  ret (nl ++
    "    INSERT INTO " ++ dq ++ dest_table ++ dq ++ nl ++
    "    (" ++ inserts ++ ")" ++ nl ++
    "    SELECT " ++ selects ++ nl ++
    "    FROM " ++ dq ++ source_table ++ dq ++ nl ++
    "    " ++ on_conflict ++ nl ++
    "    ;" ++ nl ++
    "    ").

Definition insert_trips_from
    (source_table : string) (dest_table : option string) (kw : kwargs)
    : M string :=
  let dest_table := default TRIPS dest_table in
  version <- lift (Version_new (default (VersionObj mds_lower) (kw_version kw))) ;;
  if unsupported version then raise (UnsupportedVersionError version) else
  let on_conflict_update := default VNone (kw_on_conflict_update kw) in
  on_conflict <- on_conflict_statement on_conflict_update ;;
  inserts <- list_copy _COMMON_INSERTS ;;
  list_extend inserts [
    "trip_id";
    "trip_duration";
    "trip_distance";
    "route";
    "accuracy";
    "parking_verification_url";
    "standard_cost";
    "actual_cost"
  ] ;;;
  selects <- list_copy _COMMON_SELECTS ;;
  list_extend selects [
    "cast(trip_id as uuid)";
    "trip_duration";
    "trip_distance";
    "cast(route as jsonb)";
    "accuracy";
    "parking_verification_url," ++
    "standard_cost," ++
    "actual_cost"
  ] ;;;
  bound <- lift (Version_new (VersionStr "0.3.0")) ;;
  (if Version_lt version bound then
     list_extend inserts [
       "start_time";
       "end_time"
     ] ;;;
     list_extend selects [
       "to_timestamp(start_time) at time zone 'UTC'";
       "to_timestamp(end_time) at time zone 'UTC'"
     ]
   else
     list_extend inserts [
       "start_time";
       "end_time";
       "publication_time"
     ] ;;;
     list_extend selects [
       "to_timestamp(cast(start_time as double precision) / 1000.0) at time zone 'UTC'";
       "to_timestamp(cast(end_time as double precision) / 1000.0) at time zone 'UTC'";
       "to_timestamp(cast(publication_time as double precision) / 1000.0) at time zone 'UTC'"
     ]) ;;;
  inserts <- list_join "," inserts ;;
  selects <- list_join "," selects ;;
  ret (nl ++
    "    INSERT INTO " ++ dq ++ dest_table ++ dq ++ nl ++
    "    (" ++ inserts ++ ")" ++ nl ++
    "    SELECT " ++ selects ++ nl ++
    "    FROM " ++ dq ++ source_table ++ dq ++ nl ++
    "    " ++ on_conflict ++ nl ++
    "    ;" ++ nl ++
    "    ").

(** ** Running the store operations *)

Lemma append_assoc (a b c : string) : (a ++ b) ++ c = a ++ (b ++ c).
Proof. induction a as [|x a IH]; simpl; [reflexivity | now rewrite IH]. Qed.

Lemma bind_ok {A B} (m : M A) (k : A -> M B) h a h' :
  m h = (Ok a, h') -> bind m k h = k a h'.
Proof. intros E. unfold bind. now rewrite E. Qed.

Lemma bind_raise {A B} (m : M A) (k : A -> M B) h e h' :
  m h = (Raise e, h') -> bind m k h = (Raise e, h').
Proof. intros E. unfold bind. now rewrite E. Qed.

Lemma list_copy_base (h : heap) l xs :
  h !! l = Some xs ->
  list_copy l h = (Ok (length h), (h ++ [xs])%list).
Proof.
  intros E. unfold list_copy, list_get, list_new, bind. now rewrite E.
Qed.

Lemma list_copy_grown (h : heap) l xs a :
  h !! l = Some xs ->
  list_copy l (h ++ [a])%list = (Ok (S (length h)), (h ++ [a; xs])%list).
Proof.
  intros E. rewrite (list_copy_base _ l xs).
  - rewrite length_app, <- app_assoc. simpl. f_equal. f_equal. lia.
  - now apply lookup_app_l_Some.
Qed.

Lemma list_extend_first (h : heap) a tl ys :
  list_extend (length h) ys (h ++ a :: tl)%list
  = (Ok tt, (h ++ (a ++ ys) :: tl)%list).
Proof.
  unfold list_extend. rewrite list_lookup_middle by reflexivity.
  f_equal. rewrite <- (Nat.add_0_r (length h)) at 1.
  now rewrite insert_app_r.
Qed.

Lemma list_extend_second (h : heap) a b tl ys :
  list_extend (S (length h)) ys (h ++ a :: b :: tl)%list
  = (Ok tt, (h ++ a :: (b ++ ys) :: tl)%list).
Proof.
  replace (h ++ a :: b :: tl)%list with ((h ++ [a]) ++ b :: tl)%list
    by now rewrite <- app_assoc.
  replace (S (length h)) with (length (h ++ [a])%list)
    by (rewrite length_app; simpl; lia).
  rewrite list_extend_first. now rewrite <- app_assoc.
Qed.

Lemma list_join_first (h : heap) sep a tl :
  list_join sep (length h) (h ++ a :: tl)%list
  = (Ok (str_join sep a), (h ++ a :: tl)%list).
Proof.
  unfold list_join, list_get, bind, ret.
  now rewrite list_lookup_middle by reflexivity.
Qed.

Lemma list_join_second (h : heap) sep a b tl :
  list_join sep (S (length h)) (h ++ a :: b :: tl)%list
  = (Ok (str_join sep b), (h ++ a :: b :: tl)%list).
Proof.
  replace (h ++ a :: b :: tl)%list with ((h ++ [a]) ++ b :: tl)%list
    by now rewrite <- app_assoc.
  replace (S (length h)) with (length (h ++ [a])%list)
    by (rewrite length_app; simpl; lia).
  apply list_join_first.
Qed.

(** One step of a builder on a store whose last objects are known. *)
Ltac run_step :=
  first [ rewrite list_extend_first
        | rewrite list_extend_second
        | rewrite list_join_first
        | rewrite list_join_second ];
  cbv beta iota.

Lemma rendered_eq (dest cols exprs src oc : string) :
  nl ++
    "    INSERT INTO " ++ dq ++ dest ++ dq ++ nl ++
    "    (" ++ cols ++ ")" ++ nl ++
    "    SELECT " ++ exprs ++ nl ++
    "    FROM " ++ dq ++ src ++ dq ++ nl ++
    "    " ++ oc ++ nl ++
    "    ;" ++ nl ++
    "    "
  = rendered dest cols exprs src oc.
Proof.
  unfold rendered, statement_template, layout, nl, dq.
  repeat rewrite append_assoc. reflexivity.
Qed.

Lemma insert_status_changes_from_run (h : heap) src dest kw v oc :
  module_intact h ->
  Version_new (default (VersionObj mds_lower) (kw_version kw)) = Ok v ->
  unsupported v = false ->
  on_conflict_statement (default VNone (kw_on_conflict_update kw)) h
    = (Ok oc, h) ->
  insert_status_changes_from src dest kw h
  = (Ok (rendered (default STATUS_CHANGES dest)
           (str_join "," (status_change_inserts v))
           (str_join "," (status_change_selects v)) src oc),
     (h ++ [status_change_inserts v; status_change_selects v])%list).
Proof.
  intros [Hi Hs] Hv Hu Hoc.
  unfold insert_status_changes_from, bind, lift, raise, ret.
  cbv beta zeta. rewrite Hv. cbv beta iota. rewrite Hu, Hoc. cbv beta iota.
  rewrite (list_copy_base h _ _ Hi). cbv beta iota.
  rewrite (list_extend_first h _ []). cbv beta iota.
  rewrite (list_copy_grown h _ _ _ Hs). cbv beta iota.
  run_step.
  change (Version_new (VersionStr "0.3.0")) with (Ok (mkVersion 0 3 0)).
  cbv beta iota.
  unfold status_change_inserts, status_change_selects, before_0_3_0.
  destruct (Version_lt v (mkVersion 0 3 0)); repeat run_step;
    rewrite rendered_eq; repeat rewrite <- app_assoc; reflexivity.
Qed.

Lemma insert_trips_from_run (h : heap) src dest kw v oc :
  module_intact h ->
  Version_new (default (VersionObj mds_lower) (kw_version kw)) = Ok v ->
  unsupported v = false ->
  on_conflict_statement (default VNone (kw_on_conflict_update kw)) h
    = (Ok oc, h) ->
  insert_trips_from src dest kw h
  = (Ok (rendered (default TRIPS dest)
           (str_join "," (trip_inserts v))
           (str_join "," (trip_selects v)) src oc),
     (h ++ [trip_inserts v; trip_selects v])%list).
Proof.
  intros [Hi Hs] Hv Hu Hoc.
  unfold insert_trips_from, bind, lift, raise, ret.
  cbv beta zeta. rewrite Hv. cbv beta iota. rewrite Hu, Hoc. cbv beta iota.
  rewrite (list_copy_base h _ _ Hi). cbv beta iota.
  rewrite (list_extend_first h _ []). cbv beta iota.
  rewrite (list_copy_grown h _ _ _ Hs). cbv beta iota.
  run_step.
  change (Version_new (VersionStr "0.3.0")) with (Ok (mkVersion 0 3 0)).
  cbv beta iota.
  unfold trip_inserts, trip_selects, before_0_3_0.
  destruct (Version_lt v (mkVersion 0 3 0)); repeat run_step;
    rewrite rendered_eq; repeat rewrite <- app_assoc; reflexivity.
Qed.

(** ** The conflict clause *)

Lemma strs_of_strings (frags : list string) :
  strs_of (map VStr frags) = Ok frags.
Proof.
  induction frags as [|f frags IH]; simpl; [reflexivity | now rewrite IH].
Qed.

(** The clause depends on the directive alone and leaves the store as
    it found it. *)
Lemma on_conflict_statement_pure (d : value) :
  exists r, forall h : heap, on_conflict_statement d h = (r, h).
Proof.
  unfold on_conflict_statement.
  destruct (truthy d); [| eexists; intros; reflexivity].
  destruct d as [| | | | |items|]; try (eexists; intros; reflexivity).
  destruct items as [|c [|a [|x items]]]; try (eexists; intros; reflexivity).
  destruct a as [| | | |frags| |pairs]; try (eexists; intros; reflexivity).
  unfold value_join, bind, lift, ret.
  destruct (strs_of frags); eexists; intros; reflexivity.
Qed.

(** C5: a directive [(condition, actions)] gives
    [ON CONFLICT condition DO UPDATE SET actions], where the actions are
    the string itself, the fragments of a list joined by commas, or the
    [column = value] pairs of a mapping joined by commas in the order of
    its items; the mapping [{battery_pct: EXCLUDED.battery_pct}] gives a
    clause that contains [battery_pct = EXCLUDED.battery_pct]. *)
Theorem on_conflict_statement_update (h : heap) (condition : string) :
  (forall actions : string,
      on_conflict_statement (VTuple [VStr condition; VStr actions]) h
      = (Ok ("ON CONFLICT " ++ condition ++ " DO UPDATE SET " ++ actions), h))
  /\ (forall frags : list string,
      on_conflict_statement
        (VTuple [VStr condition; VList (map VStr frags)]) h
      = (Ok ("ON CONFLICT " ++ condition ++ " DO UPDATE SET "
             ++ str_join "," frags), h))
  /\ (forall pairs : list (string * string),
      on_conflict_statement
        (VTuple [VStr condition;
                 VDict (map (fun kv => (VStr (fst kv), VStr (snd kv))) pairs)]) h
      = (Ok ("ON CONFLICT " ++ condition ++ " DO UPDATE SET "
             ++ str_join ","
                  (map (fun kv => fst kv ++ " = " ++ snd kv) pairs)), h))
  /\ (exists clause,
      on_conflict_statement
        (VTuple [VStr condition;
                 VDict [(VStr "battery_pct", VStr "EXCLUDED.battery_pct")]]) h
      = (Ok clause, h)
      /\ Substring "battery_pct = EXCLUDED.battery_pct" clause).
Proof.
  repeat split.
  - intros frags. unfold on_conflict_statement, value_join, bind, lift, ret.
    cbn [truthy length Nat.eqb negb]. now rewrite strs_of_strings.
  - intros pairs. unfold on_conflict_statement, bind, ret.
    cbn [truthy length Nat.eqb negb]. rewrite map_map. reflexivity.
  - eexists. split; [reflexivity |].
    exists ("ON CONFLICT " ++ condition ++ " DO UPDATE SET "), EmptyString.
    cbn [map fst snd format str_join String.concat].
    rewrite !append_assoc. reflexivity.
Qed.

(** C10: a directive that is true but is not a tuple (a bare mapping,
    list or string) gives [ON CONFLICT DO NOTHING], with no error. *)
Theorem on_conflict_statement_not_a_tuple (h : heap) (d : value) :
  truthy d = true ->
  is_tuple d = false ->
  on_conflict_statement d h = (Ok "ON CONFLICT DO NOTHING", h).
Proof.
  intros Ht Hn. unfold on_conflict_statement. rewrite Ht.
  destruct d; try reflexivity. discriminate Hn.
Qed.

(** ** Refused versions *)

Lemma insert_status_changes_from_refuses (h : heap) src dest kw v :
  Version_new (default (VersionObj mds_lower) (kw_version kw)) = Ok v ->
  unsupported v = true ->
  insert_status_changes_from src dest kw h
    = (Raise (UnsupportedVersionError v), h).
Proof.
  intros Hv Hu. unfold insert_status_changes_from, bind, lift, raise.
  cbv beta zeta. rewrite Hv. cbv beta iota. now rewrite Hu.
Qed.

Lemma insert_trips_from_refuses (h : heap) src dest kw v :
  Version_new (default (VersionObj mds_lower) (kw_version kw)) = Ok v ->
  unsupported v = true ->
  insert_trips_from src dest kw h = (Raise (UnsupportedVersionError v), h).
Proof.
  intros Hv Hu. unfold insert_trips_from, bind, lift, raise.
  cbv beta zeta. rewrite Hv. cbv beta iota. now rewrite Hu.
Qed.

(** C2: when the version the call resolves is unsupported, both builders
    raise [UnsupportedVersionError] carrying that version; no statement
    is returned and the store is as before. *)
Theorem unsupported_version_is_refused (h : heap) src dest kw v :
  Version_new (default (VersionObj mds_lower) (kw_version kw)) = Ok v ->
  unsupported v = true ->
  insert_status_changes_from src dest kw h
    = (Raise (UnsupportedVersionError v), h)
  /\ insert_trips_from src dest kw h
    = (Raise (UnsupportedVersionError v), h).
Proof.
  intros Hv Hu. split.
  - now apply insert_status_changes_from_refuses.
  - now apply insert_trips_from_refuses.
Qed.

(** ** What a call returns and leaves behind *)

Lemma module_intact_grow (h extra : heap) :
  module_intact h -> module_intact (h ++ extra)%list.
Proof.
  intros [Hi Hs]. split; now apply lookup_app_l_Some.
Qed.

Lemma insert_status_changes_from_cases src dest kw :
  exists r : result string, forall h : heap,
    module_intact h ->
    exists h', insert_status_changes_from src dest kw h = (r, h')
               /\ module_intact h'.
Proof.
  destruct (Version_new (default (VersionObj mds_lower) (kw_version kw)))
    as [v|e] eqn:Hv.
  - destruct (unsupported v) eqn:Hu.
    + eexists. intros h Hh. exists h. split; [| exact Hh].
      exact (insert_status_changes_from_refuses h src dest kw v Hv Hu).
    + destruct (on_conflict_statement_pure
                  (default VNone (kw_on_conflict_update kw))) as [[oc|e] Hoc].
      * eexists. intros h Hh. eexists. split.
        -- apply (insert_status_changes_from_run h src dest kw v oc);
             auto.
        -- now apply module_intact_grow.
      * exists (Raise e). intros h Hh. exists h. split; [| exact Hh].
        unfold insert_status_changes_from, bind, lift, raise.
        cbv beta zeta. rewrite Hv. cbv beta iota. rewrite Hu, Hoc.
        reflexivity.
  - exists (Raise e). intros h Hh. exists h. split; [| exact Hh].
    unfold insert_status_changes_from, bind, lift.
    cbv beta zeta. rewrite Hv. reflexivity.
Qed.

Lemma insert_trips_from_cases src dest kw :
  exists r : result string, forall h : heap,
    module_intact h ->
    exists h', insert_trips_from src dest kw h = (r, h')
               /\ module_intact h'.
Proof.
  destruct (Version_new (default (VersionObj mds_lower) (kw_version kw)))
    as [v|e] eqn:Hv.
  - destruct (unsupported v) eqn:Hu.
    + eexists. intros h Hh. exists h. split; [| exact Hh].
      exact (insert_trips_from_refuses h src dest kw v Hv Hu).
    + destruct (on_conflict_statement_pure
                  (default VNone (kw_on_conflict_update kw))) as [[oc|e] Hoc].
      * eexists. intros h Hh. eexists. split.
        -- apply (insert_trips_from_run h src dest kw v oc); auto.
        -- now apply module_intact_grow.
      * exists (Raise e). intros h Hh. exists h. split; [| exact Hh].
        unfold insert_trips_from, bind, lift, raise.
        cbv beta zeta. rewrite Hv. cbv beta iota. rewrite Hu, Hoc.
        reflexivity.
  - exists (Raise e). intros h Hh. exists h. split; [| exact Hh].
    unfold insert_trips_from, bind, lift.
    cbv beta zeta. rewrite Hv. reflexivity.
Qed.

(** ** The text of a statement *)

Lemma statement_template_one_line (dest cols exprs src oc : string) :
  statement_template " " dest cols exprs src oc
  = "INSERT INTO " ++ dq ++ dest ++ dq ++ " (" ++ cols ++ ") SELECT "
    ++ exprs ++ " FROM " ++ dq ++ src ++ dq ++ " " ++ oc ++ " ;".
Proof. reflexivity. Qed.

Lemma rendered_has_clause (dest cols exprs src oc : string) :
  Substring oc (rendered dest cols exprs src oc).
Proof.
  exists (layout ++ "INSERT INTO " ++ dq ++ dest ++ dq ++ layout ++
          "(" ++ cols ++ ")" ++ layout ++
          "SELECT " ++ exprs ++ layout ++
          "FROM " ++ dq ++ src ++ dq ++ layout),
         (layout ++ ";" ++ layout).
  unfold rendered, statement_template.
  repeat rewrite append_assoc. reflexivity.
Qed.

(** C6: without a directive (absent, or [None]) the clause is exactly
    [ON CONFLICT DO NOTHING], and the statements of both builders
    contain it. *)
Theorem on_conflict_default (h : heap) src dest kw v :
  module_intact h ->
  Version_new (default (VersionObj mds_lower) (kw_version kw)) = Ok v ->
  unsupported v = false ->
  default VNone (kw_on_conflict_update kw) = VNone ->
  on_conflict_statement VNone h = (Ok "ON CONFLICT DO NOTHING", h)
  /\ (exists stmt,
        fst (insert_status_changes_from src dest kw h) = Ok stmt
        /\ Substring "ON CONFLICT DO NOTHING" stmt)
  /\ (exists stmt,
        fst (insert_trips_from src dest kw h) = Ok stmt
        /\ Substring "ON CONFLICT DO NOTHING" stmt).
Proof.
  intros Hh Hv Hu Hd.
  assert (Hoc : on_conflict_statement
                  (default VNone (kw_on_conflict_update kw)) h
                = (Ok "ON CONFLICT DO NOTHING", h))
    by (rewrite Hd; reflexivity).
  split; [reflexivity |]. split.
  - rewrite (insert_status_changes_from_run h src dest kw v _ Hh Hv Hu Hoc).
    eexists. split; [reflexivity | apply rendered_has_clause].
  - rewrite (insert_trips_from_run h src dest kw v _ Hh Hv Hu Hoc).
    eexists. split; [reflexivity | apply rendered_has_clause].
Qed.

(** C7: for a supported version, any two table names and any directive
    the clause builder accepts, each builder returns the parts
    [INSERT INTO "dest"], [(cols)], [SELECT exprs], [FROM "src"], the
    conflict clause and [;] in this order, the table names in double
    quotes, [cols] and [exprs] being the two column lists joined by
    commas; the parts are separated, and the text surrounded, by white
    space only. *)
Theorem statement_shape (h : heap) src dest kw v oc :
  module_intact h ->
  Version_new (default (VersionObj mds_lower) (kw_version kw)) = Ok v ->
  unsupported v = false ->
  on_conflict_statement (default VNone (kw_on_conflict_update kw)) h
    = (Ok oc, h) ->
  blank layout = true
  /\ (exists inserts selects,
        insert_status_changes_from src dest kw h
        = (Ok (layout
               ++ statement_template layout (default STATUS_CHANGES dest)
                    (str_join "," inserts) (str_join "," selects) src oc
               ++ layout),
           (h ++ [inserts; selects])%list))
  /\ (exists inserts selects,
        insert_trips_from src dest kw h
        = (Ok (layout
               ++ statement_template layout (default TRIPS dest)
                    (str_join "," inserts) (str_join "," selects) src oc
               ++ layout),
           (h ++ [inserts; selects])%list)).
Proof.
  intros Hh Hv Hu Hoc. split; [reflexivity |]. split.
  - exists (status_change_inserts v), (status_change_selects v).
    apply (insert_status_changes_from_run h src dest kw v oc Hh Hv Hu Hoc).
  - exists (trip_inserts v), (trip_selects v).
    apply (insert_trips_from_run h src dest kw v oc Hh Hv Hu Hoc).
Qed.

(** ** Columns and their expressions *)

Lemma not_In_by_eqb (x : string) (l : list string) :
  existsb (String.eqb x) l = false -> ~ In x l.
Proof.
  intros E HIn. apply Bool.not_true_iff_false in E. apply E.
  apply existsb_exists. exists x. split; [exact HIn | apply String.eqb_refl].
Qed.

(** C1 (what the code does): the list of select expressions is shorter
    than the list of insert columns, by one element for status changes
    and by three for trips.  [vehicle_id] and the cast of [vehicle_type]
    are one element of the select list, so from the fifth position on a
    column and the expression at its position no longer belong together;
    the three cost columns of a trip share one element too. *)
Theorem column_lists_are_misaligned (h : heap) src dest kw v oc :
  module_intact h ->
  Version_new (default (VersionObj mds_lower) (kw_version kw)) = Ok v ->
  unsupported v = false ->
  on_conflict_statement (default VNone (kw_on_conflict_update kw)) h
    = (Ok oc, h) ->
  (exists inserts selects : list string,
      snd (insert_status_changes_from src dest kw h)
      = (h ++ [inserts; selects])%list
      /\ length inserts = S (length selects)
      /\ inserts !! 3 = Some "vehicle_id"
      /\ selects !! 3 = Some "vehicle_id,cast(vehicle_type as vehicle_types)"
      /\ inserts !! 4 = Some "vehicle_type"
      /\ selects !! 4 = Some "cast(propulsion_type as propulsion_types[])")
  /\ (exists inserts selects : list string,
      snd (insert_trips_from src dest kw h)
      = (h ++ [inserts; selects])%list
      /\ length inserts = (3 + length selects)%nat
      /\ inserts !! 11 = Some "parking_verification_url"
      /\ selects !! 10
         = Some "parking_verification_url,standard_cost,actual_cost").
Proof.
  intros Hh Hv Hu Hoc. split.
  - rewrite (insert_status_changes_from_run h src dest kw v oc Hh Hv Hu Hoc).
    exists (status_change_inserts v), (status_change_selects v).
    unfold status_change_inserts, status_change_selects.
    destruct (before_0_3_0 v); repeat split; reflexivity.
  - rewrite (insert_trips_from_run h src dest kw v oc Hh Hv Hu Hoc).
    exists (trip_inserts v), (trip_selects v).
    unfold trip_inserts, trip_selects.
    destruct (before_0_3_0 v); repeat split; reflexivity.
Qed.

(** The joined texts do line up: split at the commas, both have the same
    number of fields. *)
Lemma joined_fields_same_number (v : Version) :
  length (fields (str_join "," (status_change_inserts v)))
  = length (fields (str_join "," (status_change_selects v)))
  /\ length (fields (str_join "," (trip_inserts v)))
    = length (fields (str_join "," (trip_selects v))).
Proof.
  unfold status_change_inserts, status_change_selects,
    trip_inserts, trip_selects.
  destruct (before_0_3_0 v); split; vm_compute; reflexivity.
Qed.

(** C3: for supported versions [v1] below 0.3.0 and [v2] not below it,
    the status-change statement built with [v1] has the column
    [associated_trips] with the expression
    [cast(associated_trips as uuid[])] at its position and no column
    [publication_time]; built with [v2] it has the column
    [associated_trip] with [cast(associated_trip as uuid)] and a column
    [publication_time]. *)
Theorem status_changes_across_0_3_0
    (h : heap) src dest (directive : option value) v1 v2 oc :
  module_intact h ->
  unsupported v1 = false ->
  unsupported v2 = false ->
  Version_lt v1 (mkVersion 0 3 0) = true ->
  Version_lt v2 (mkVersion 0 3 0) = false ->
  on_conflict_statement (default VNone directive) h = (Ok oc, h) ->
  (exists cols exprs i,
      fst (insert_status_changes_from src dest
             (mkKwargs (Some (VersionObj v1)) directive) h)
      = Ok (rendered (default STATUS_CHANGES dest) cols exprs src oc)
      /\ fields cols !! i = Some "associated_trips"
      /\ fields exprs !! i = Some "cast(associated_trips as uuid[])"
      /\ ~ In "publication_time" (fields cols))
  /\ (exists cols exprs i j,
      fst (insert_status_changes_from src dest
             (mkKwargs (Some (VersionObj v2)) directive) h)
      = Ok (rendered (default STATUS_CHANGES dest) cols exprs src oc)
      /\ fields cols !! i = Some "associated_trip"
      /\ fields exprs !! i = Some "cast(associated_trip as uuid)"
      /\ fields cols !! j = Some "publication_time"
      /\ fields exprs !! j
         = Some "to_timestamp(cast(publication_time as double precision) / 1000.0) at time zone 'UTC'").
Proof.
  intros Hh Hu1 Hu2 Hb1 Hb2 Hoc. split.
  - rewrite (insert_status_changes_from_run h src dest
               (mkKwargs (Some (VersionObj v1)) directive) v1 oc
               Hh eq_refl Hu1 Hoc).
    exists (str_join "," (status_change_inserts v1)),
           (str_join "," (status_change_selects v1)), 11.
    unfold status_change_inserts, status_change_selects, before_0_3_0.
    rewrite Hb1. split; [reflexivity |].
    repeat split; try reflexivity.
    apply not_In_by_eqb. reflexivity.
  - rewrite (insert_status_changes_from_run h src dest
               (mkKwargs (Some (VersionObj v2)) directive) v2 oc
               Hh eq_refl Hu2 Hoc).
    exists (str_join "," (status_change_inserts v2)),
           (str_join "," (status_change_selects v2)), 12, 11.
    unfold status_change_inserts, status_change_selects, before_0_3_0.
    rewrite Hb2. repeat split; reflexivity.
Qed.

(** C4: for the staging table [stage_trips], version 0.2.1 gives a trip
    statement whose columns end with [start_time,end_time], have no
    [publication_time], and whose expression for [start_time] is
    [to_timestamp(start_time) at time zone 'UTC']; version 0.4.0 gives
    columns that end with [start_time,end_time,publication_time] and the
    expression
    [to_timestamp(cast(start_time as double precision) / 1000.0) at time zone 'UTC']. *)
Theorem trips_0_2_1_and_0_4_0 (h : heap) :
  module_intact h ->
  unsupported (mkVersion 0 2 1) = false ->
  unsupported (mkVersion 0 4 0) = false ->
  (exists cols exprs front i,
      fst (insert_trips_from "stage_trips" None
             (mkKwargs (Some (VersionStr "0.2.1")) None) h)
      = Ok (rendered "trips" cols exprs "stage_trips"
              "ON CONFLICT DO NOTHING")
      /\ fields cols = (front ++ ["start_time"; "end_time"])%list
      /\ ~ In "publication_time" (fields cols)
      /\ fields cols !! i = Some "start_time"
      /\ fields exprs !! i
         = Some "to_timestamp(start_time) at time zone 'UTC'")
  /\ (exists cols exprs front i,
      fst (insert_trips_from "stage_trips" None
             (mkKwargs (Some (VersionStr "0.4.0")) None) h)
      = Ok (rendered "trips" cols exprs "stage_trips"
              "ON CONFLICT DO NOTHING")
      /\ fields cols
         = (front ++ ["start_time"; "end_time"; "publication_time"])%list
      /\ fields cols !! i = Some "start_time"
      /\ fields exprs !! i
         = Some "to_timestamp(cast(start_time as double precision) / 1000.0) at time zone 'UTC'").
Proof.
  intros Hh Hu1 Hu2. split.
  - rewrite (insert_trips_from_run h "stage_trips" None
               (mkKwargs (Some (VersionStr "0.2.1")) None) (mkVersion 0 2 1)
               "ON CONFLICT DO NOTHING" Hh eq_refl Hu1 eq_refl).
    exists (str_join "," (trip_inserts (mkVersion 0 2 1))),
           (str_join "," (trip_selects (mkVersion 0 2 1))),
           (firstn 14 (trip_inserts (mkVersion 0 2 1))), 14.
    split; [reflexivity |]. repeat split; try reflexivity.
    apply not_In_by_eqb. reflexivity.
  - rewrite (insert_trips_from_run h "stage_trips" None
               (mkKwargs (Some (VersionStr "0.4.0")) None) (mkVersion 0 4 0)
               "ON CONFLICT DO NOTHING" Hh eq_refl Hu2 eq_refl).
    exists (str_join "," (trip_inserts (mkVersion 0 4 0))),
           (str_join "," (trip_selects (mkVersion 0 4 0))),
           (firstn 14 (trip_inserts (mkVersion 0 4 0))), 14.
    repeat split; reflexivity.
Qed.

(** ** Repeated calls *)

(** C9: no call changes the two module-level lists; after a call, also
    one that raised, both hold their initial elements. *)
Theorem module_lists_are_preserved (h : heap) src dest kw (d : value) :
  module_intact h ->
  module_intact (snd (insert_status_changes_from src dest kw h))
  /\ module_intact (snd (insert_trips_from src dest kw h))
  /\ module_intact (snd (on_conflict_statement d h)).
Proof.
  intros Hh. repeat split.
  - destruct (insert_status_changes_from_cases src dest kw) as [r Hr].
    destruct (Hr h Hh) as [h' [E Hh']]. rewrite E. apply Hh'.
  - destruct (insert_status_changes_from_cases src dest kw) as [r Hr].
    destruct (Hr h Hh) as [h' [E Hh']]. rewrite E. apply Hh'.
  - destruct (insert_trips_from_cases src dest kw) as [r Hr].
    destruct (Hr h Hh) as [h' [E Hh']]. rewrite E. apply Hh'.
  - destruct (insert_trips_from_cases src dest kw) as [r Hr].
    destruct (Hr h Hh) as [h' [E Hh']]. rewrite E. apply Hh'.
  - destruct (on_conflict_statement_pure d) as [r Hr]. rewrite Hr. apply Hh.
  - destruct (on_conflict_statement_pure d) as [r Hr]. rewrite Hr. apply Hh.
Qed.

(** C8: two calls with the same arguments return the same result, be it
    from two stores in which the module-level lists are intact or one
    call right after the other. *)
Theorem calls_are_deterministic (h1 h2 : heap) src dest kw (d : value) :
  module_intact h1 ->
  module_intact h2 ->
  fst (insert_status_changes_from src dest kw h1)
    = fst (insert_status_changes_from src dest kw h2)
  /\ fst (insert_trips_from src dest kw h1)
    = fst (insert_trips_from src dest kw h2)
  /\ fst (on_conflict_statement d h1) = fst (on_conflict_statement d h2)
  /\ fst (insert_status_changes_from src dest kw
            (snd (insert_status_changes_from src dest kw h1)))
    = fst (insert_status_changes_from src dest kw h1)
  /\ fst (insert_trips_from src dest kw
            (snd (insert_trips_from src dest kw h1)))
    = fst (insert_trips_from src dest kw h1)
  /\ fst (on_conflict_statement d (snd (on_conflict_statement d h1)))
    = fst (on_conflict_statement d h1).
Proof.
  intros H1 H2.
  destruct (insert_status_changes_from_cases src dest kw) as [rs Hs].
  destruct (insert_trips_from_cases src dest kw) as [rt Ht].
  destruct (on_conflict_statement_pure d) as [rc Hc].
  destruct (Hs h1 H1) as [hs1 [Es1 Is1]].
  destruct (Hs h2 H2) as [hs2 [Es2 _]].
  destruct (Hs hs1 Is1) as [hs3 [Es3 _]].
  destruct (Ht h1 H1) as [ht1 [Et1 It1]].
  destruct (Ht h2 H2) as [ht2 [Et2 _]].
  destruct (Ht ht1 It1) as [ht3 [Et3 _]].
  rewrite Es1, Es2, Et1, Et2. cbn [fst snd].
  rewrite Es3, Et3, !Hc. cbn [fst snd]. rewrite ?Hc.
  repeat split; reflexivity.
Qed.

(** ** More on the conflict clause *)

Lemma strs_of_spec (xs : list value) :
  strs_of xs
  = if forallb is_str xs then Ok (map format xs) else Raise TypeError.
Proof.
  induction xs as [|x xs IH]; [reflexivity |].
  destruct x; try reflexivity.
  cbn [strs_of forallb is_str andb map format]. rewrite IH.
  destruct (forallb is_str xs); reflexivity.
Qed.

(** X1: a tuple that is not empty and has not exactly two elements cannot
    be unpacked: the clause builder raises [ValueError], and so does each
    statement builder called with it for a supported version, before any
    list is created. *)
Theorem tuple_of_wrong_length_raises (h : heap) src dest kw v items :
  Version_new (default (VersionObj mds_lower) (kw_version kw)) = Ok v ->
  unsupported v = false ->
  kw_on_conflict_update kw = Some (VTuple items) ->
  items <> [] ->
  length items <> 2 ->
  on_conflict_statement (VTuple items) h = (Raise ValueError, h)
  /\ insert_status_changes_from src dest kw h = (Raise ValueError, h)
  /\ insert_trips_from src dest kw h = (Raise ValueError, h).
Proof.
  intros Hv Hu Hd Hne Hlen.
  assert (E : on_conflict_statement (VTuple items) h = (Raise ValueError, h)).
  { destruct items as [|a [|b [|c rest]]]; try reflexivity.
    - now contradiction Hne.
    - now contradiction Hlen. }
  split; [exact E |].
  unfold insert_status_changes_from, insert_trips_from, bind, lift, raise.
  cbv beta zeta. rewrite Hv. cbv beta iota. rewrite Hu, Hd.
  change (default VNone (Some (VTuple items))) with (VTuple items).
  rewrite E. split; reflexivity.
Qed.

(** X2: with a list of actions the clause builder returns the clause with
    the fragments joined by commas when every fragment is a [str], and
    raises [TypeError] otherwise. *)
Theorem list_actions_must_be_strings (h : heap) (condition : value) frags :
  on_conflict_statement (VTuple [condition; VList frags]) h
  = if forallb is_str frags
    then (Ok ("ON CONFLICT " ++ format condition ++ " DO UPDATE SET "
              ++ str_join "," (map format frags)), h)
    else (Raise TypeError, h).
Proof.
  unfold on_conflict_statement, value_join, bind, lift, ret.
  cbn [truthy length Nat.eqb negb]. rewrite strs_of_spec.
  destruct (forallb is_str frags); reflexivity.
Qed.

(** X3: the clause builder raises for nothing but a non-empty tuple, and
    then either [ValueError], the tuple not having two elements, or
    [TypeError], its second element being a list with an element that is
    not a [str]. *)
Theorem on_conflict_statement_errors (h : heap) (d : value) e :
  fst (on_conflict_statement d h) = Raise e ->
  exists items,
    d = VTuple items /\ items <> []
    /\ ((length items <> 2 /\ e = ValueError)
        \/ (exists condition frags,
              items = [condition; VList frags]
              /\ forallb is_str frags = false /\ e = TypeError)).
Proof.
  unfold on_conflict_statement. intros E.
  destruct (truthy d) eqn:Ht; [| discriminate E].
  destruct d as [| | | | |items|]; try discriminate E.
  exists items. split; [reflexivity |].
  destruct items as [|c [|a [|x rest]]].
  - discriminate Ht.
  - split; [discriminate |]. left. split; [discriminate |].
    cbn in E. congruence.
  - split; [discriminate |]. right.
    destruct a as [| | | |frags| |pairs]; try discriminate E.
    exists c, frags. split; [reflexivity |].
    unfold value_join, bind, lift, ret in E. rewrite strs_of_spec in E.
    destruct (forallb is_str frags); [discriminate E |].
    cbn in E. split; congruence.
  - split; [discriminate |]. left. split; [discriminate |].
    cbn in E. congruence.
Qed.

Lemma prefix_append (a b : string) : String.prefix a (a ++ b) = true.
Proof.
  induction a as [|x a IH]; simpl.
  - destruct b; reflexivity.
  - destruct (ascii_dec x x) as [_|N]; [exact IH | now contradiction N].
Qed.

(** X4: whatever the directive, a clause that is returned begins with
    [ON CONFLICT ]. *)
Theorem on_conflict_statement_prefix (h h' : heap) (d : value) clause :
  on_conflict_statement d h = (Ok clause, h') ->
  String.prefix "ON CONFLICT " clause = true.
Proof.
  unfold on_conflict_statement. intros E.
  destruct (truthy d); [| injection E as <- _; reflexivity].
  destruct d as [| | | | |items|]; try (injection E as <- _; reflexivity).
  destruct items as [|c [|a [|x rest]]]; try discriminate E.
  unfold value_join, bind, lift, ret in E.
  destruct a as [| | | |frags| |pairs];
    try (injection E as <- _; exact (prefix_append "ON CONFLICT " _)).
  destruct (strs_of frags); [| discriminate E].
  injection E as <- _. exact (prefix_append "ON CONFLICT " _).
Qed.

(** X5: the three forms of the actions give the same clause: a mapping
    gives what the list of its [column = value] fragments gives, and a
    list of fragments gives what its comma-joined text gives. *)
Theorem actions_forms_agree (h : heap) (condition : value) :
  (forall pairs : list (string * string),
      on_conflict_statement
        (VTuple [condition;
                 VDict (map (fun kv => (VStr (fst kv), VStr (snd kv))) pairs)]) h
      = on_conflict_statement
          (VTuple [condition;
                   VList (map (fun kv => VStr (fst kv ++ " = " ++ snd kv))
                              pairs)]) h)
  /\ (forall frags : list string,
      on_conflict_statement (VTuple [condition; VList (map VStr frags)]) h
      = on_conflict_statement
          (VTuple [condition; VStr (str_join "," frags)]) h).
Proof.
  split.
  - intros pairs. unfold on_conflict_statement, value_join, bind, lift, ret.
    cbn [truthy length Nat.eqb negb].
    rewrite <- (map_map (fun kv => fst kv ++ " = " ++ snd kv) VStr).
    rewrite strs_of_strings, map_map. reflexivity.
  - intros frags. unfold on_conflict_statement, value_join, bind, lift, ret.
    cbn [truthy length Nat.eqb negb]. now rewrite strs_of_strings.
Qed.

(** ** More on the statement builders *)

Lemma insert_status_changes_from_version_raises (h : heap) src dest kw e :
  Version_new (default (VersionObj mds_lower) (kw_version kw)) = Raise e ->
  insert_status_changes_from src dest kw h = (Raise e, h).
Proof.
  intros Hv. unfold insert_status_changes_from, bind, lift.
  cbv beta zeta. now rewrite Hv.
Qed.

Lemma insert_trips_from_version_raises (h : heap) src dest kw e :
  Version_new (default (VersionObj mds_lower) (kw_version kw)) = Raise e ->
  insert_trips_from src dest kw h = (Raise e, h).
Proof.
  intros Hv. unfold insert_trips_from, bind, lift.
  cbv beta zeta. now rewrite Hv.
Qed.

Lemma insert_status_changes_from_directive_raises
    (h : heap) src dest kw v e :
  Version_new (default (VersionObj mds_lower) (kw_version kw)) = Ok v ->
  unsupported v = false ->
  on_conflict_statement (default VNone (kw_on_conflict_update kw)) h
    = (Raise e, h) ->
  insert_status_changes_from src dest kw h = (Raise e, h).
Proof.
  intros Hv Hu Hoc. unfold insert_status_changes_from, bind, lift, raise.
  cbv beta zeta. rewrite Hv. cbv beta iota. now rewrite Hu, Hoc.
Qed.

Lemma insert_trips_from_directive_raises (h : heap) src dest kw v e :
  Version_new (default (VersionObj mds_lower) (kw_version kw)) = Ok v ->
  unsupported v = false ->
  on_conflict_statement (default VNone (kw_on_conflict_update kw)) h
    = (Raise e, h) ->
  insert_trips_from src dest kw h = (Raise e, h).
Proof.
  intros Hv Hu Hoc. unfold insert_trips_from, bind, lift, raise.
  cbv beta zeta. rewrite Hv. cbv beta iota. now rewrite Hu, Hoc.
Qed.

(** X6: with the module-level lists intact, a statement builder raises
    only what [Version(...)] raises, [UnsupportedVersionError] for an
    unsupported version, or what the clause builder raises for the
    directive; the list operations never fail. *)
Theorem builder_errors (h : heap) src dest kw e :
  module_intact h ->
  fst (insert_status_changes_from src dest kw h) = Raise e
  \/ fst (insert_trips_from src dest kw h) = Raise e ->
  Version_new (default (VersionObj mds_lower) (kw_version kw)) = Raise e
  \/ (exists v,
        Version_new (default (VersionObj mds_lower) (kw_version kw)) = Ok v
        /\ unsupported v = true /\ e = UnsupportedVersionError v)
  \/ (exists v,
        Version_new (default (VersionObj mds_lower) (kw_version kw)) = Ok v
        /\ unsupported v = false
        /\ fst (on_conflict_statement
                  (default VNone (kw_on_conflict_update kw)) h) = Raise e).
Proof.
  intros Hh E.
  destruct (Version_new (default (VersionObj mds_lower) (kw_version kw)))
    as [v|e'] eqn:Hv.
  - destruct (unsupported v) eqn:Hu.
    + right. left. exists v. split; [reflexivity |]. split; [exact Hu |].
      rewrite (insert_status_changes_from_refuses h src dest kw v Hv Hu),
        (insert_trips_from_refuses h src dest kw v Hv Hu) in E.
      cbn [fst] in E. destruct E as [E|E]; congruence.
    + right. right. exists v. split; [reflexivity |]. split; [exact Hu |].
      destruct (on_conflict_statement_pure
                  (default VNone (kw_on_conflict_update kw))) as [[oc|e''] Hoc].
      * rewrite (insert_status_changes_from_run h src dest kw v oc
                   Hh Hv Hu (Hoc h)),
          (insert_trips_from_run h src dest kw v oc Hh Hv Hu (Hoc h)) in E.
        cbn [fst] in E. destruct E as [E|E]; discriminate E.
      * rewrite (insert_status_changes_from_directive_raises
                   h src dest kw v e'' Hv Hu (Hoc h)),
          (insert_trips_from_directive_raises
             h src dest kw v e'' Hv Hu (Hoc h)) in E.
        rewrite Hoc. cbn [fst] in *. destruct E as [E|E]; exact E.
  - left.
    rewrite (insert_status_changes_from_version_raises h src dest kw e' Hv),
      (insert_trips_from_version_raises h src dest kw e' Hv) in E.
    cbn [fst] in E. destruct E as [E|E]; congruence.
Qed.

(** X7: with the module-level lists intact, a call that returns a
    statement adds exactly two list objects to the store and changes none
    that was there; a call that raises leaves the store as it was. *)
Theorem builder_store_effect (h : heap) src dest kw :
  module_intact h ->
  ((exists stmt inserts selects,
       insert_status_changes_from src dest kw h
       = (Ok stmt, (h ++ [inserts; selects])%list))
   \/ (exists e, insert_status_changes_from src dest kw h = (Raise e, h)))
  /\ ((exists stmt inserts selects,
         insert_trips_from src dest kw h
         = (Ok stmt, (h ++ [inserts; selects])%list))
      \/ (exists e, insert_trips_from src dest kw h = (Raise e, h))).
Proof.
  intros Hh.
  destruct (Version_new (default (VersionObj mds_lower) (kw_version kw)))
    as [v|e] eqn:Hv.
  - destruct (unsupported v) eqn:Hu.
    + split; right; eexists.
      * exact (insert_status_changes_from_refuses h src dest kw v Hv Hu).
      * exact (insert_trips_from_refuses h src dest kw v Hv Hu).
    + destruct (on_conflict_statement_pure
                  (default VNone (kw_on_conflict_update kw))) as [[oc|e] Hoc].
      * split; left; do 3 eexists.
        -- exact (insert_status_changes_from_run h src dest kw v oc
                    Hh Hv Hu (Hoc h)).
        -- exact (insert_trips_from_run h src dest kw v oc Hh Hv Hu (Hoc h)).
      * split; right; exists e.
        -- exact (insert_status_changes_from_directive_raises
                    h src dest kw v e Hv Hu (Hoc h)).
        -- exact (insert_trips_from_directive_raises
                    h src dest kw v e Hv Hu (Hoc h)).
  - split; right; exists e.
    + exact (insert_status_changes_from_version_raises h src dest kw e Hv).
    + exact (insert_trips_from_version_raises h src dest kw e Hv).
Qed.

(** X8: among supported versions only the side of 0.3.0 matters: two
    versions that are both below 0.3.0, or both not below it, give the
    same result, statement and store alike. *)
Theorem same_era_same_statement
    (h : heap) src dest (directive : option value) v1 v2 :
  module_intact h ->
  unsupported v1 = false ->
  unsupported v2 = false ->
  Version_lt v1 (mkVersion 0 3 0) = Version_lt v2 (mkVersion 0 3 0) ->
  insert_status_changes_from src dest
    (mkKwargs (Some (VersionObj v1)) directive) h
  = insert_status_changes_from src dest
      (mkKwargs (Some (VersionObj v2)) directive) h
  /\ insert_trips_from src dest (mkKwargs (Some (VersionObj v1)) directive) h
    = insert_trips_from src dest
        (mkKwargs (Some (VersionObj v2)) directive) h.
Proof.
  intros Hh Hu1 Hu2 Hb.
  destruct (on_conflict_statement_pure (default VNone directive))
    as [[oc|e] Hoc].
  - rewrite (insert_status_changes_from_run h src dest
               (mkKwargs (Some (VersionObj v1)) directive) v1 oc
               Hh eq_refl Hu1 (Hoc h)),
      (insert_status_changes_from_run h src dest
         (mkKwargs (Some (VersionObj v2)) directive) v2 oc
         Hh eq_refl Hu2 (Hoc h)),
      (insert_trips_from_run h src dest
         (mkKwargs (Some (VersionObj v1)) directive) v1 oc
         Hh eq_refl Hu1 (Hoc h)),
      (insert_trips_from_run h src dest
         (mkKwargs (Some (VersionObj v2)) directive) v2 oc
         Hh eq_refl Hu2 (Hoc h)).
    unfold status_change_inserts, status_change_selects,
      trip_inserts, trip_selects, before_0_3_0.
    rewrite Hb. split; reflexivity.
  - rewrite (insert_status_changes_from_directive_raises h src dest
               (mkKwargs (Some (VersionObj v1)) directive) v1 e
               eq_refl Hu1 (Hoc h)),
      (insert_status_changes_from_directive_raises h src dest
         (mkKwargs (Some (VersionObj v2)) directive) v2 e
         eq_refl Hu2 (Hoc h)),
      (insert_trips_from_directive_raises h src dest
         (mkKwargs (Some (VersionObj v1)) directive) v1 e
         eq_refl Hu1 (Hoc h)),
      (insert_trips_from_directive_raises h src dest
         (mkKwargs (Some (VersionObj v2)) directive) v2 e
         eq_refl Hu2 (Hoc h)).
    split; reflexivity.
Qed.

(** ** Columns and expressions of the joined text *)

Lemma prefix_split (a s : string) :
  String.prefix a s = true -> exists rest, s = a ++ rest.
Proof.
  revert s. induction a as [|x a IH]; intros s E.
  - exists s. reflexivity.
  - destruct s as [|y s]; [discriminate E |]. simpl in E.
    destruct (ascii_dec x y) as [->|_]; [| discriminate E].
    destruct (IH s E) as [rest ->]. exists rest. reflexivity.
Qed.

Lemma is_substring_sound (needle hay : string) :
  is_substring needle hay = true -> Substring needle hay.
Proof.
  induction hay as [|y hay IH]; cbn [is_substring]; intros E;
    apply Bool.orb_true_iff in E as [E|E].
  - destruct (prefix_split _ _ E) as [rest Hr].
    exists EmptyString, rest. exact Hr.
  - discriminate E.
  - destruct (prefix_split _ _ E) as [rest Hr].
    exists EmptyString, rest. exact Hr.
  - destruct (IH E) as [before [after Hr]].
    exists (String y before), after. simpl. now rewrite Hr.
Qed.

Lemma all2_lookup (P : string -> string -> bool) (xs ys : list string) :
  all2 P xs ys = true ->
  forall i x y, xs !! i = Some x -> ys !! i = Some y -> P x y = true.
Proof.
  revert ys. induction xs as [|x0 xs IH]; intros ys E i x y Hx Hy.
  - destruct i; discriminate Hx.
  - destruct ys as [|y0 ys]; [destruct i; discriminate Hy |].
    simpl in E. apply Bool.andb_true_iff in E as [E0 E].
    destruct i as [|i].
    + injection Hx as <-. injection Hy as <-. exact E0.
    + exact (IH ys E i x y Hx Hy).
Qed.

(** X9: in the statement a builder returns, the column text and the
    expression text, split at the commas, have the same number of fields,
    and the expression at each position mentions the column at that
    position. *)
Theorem joined_columns_line_up (h : heap) src dest kw v oc :
  module_intact h ->
  Version_new (default (VersionObj mds_lower) (kw_version kw)) = Ok v ->
  unsupported v = false ->
  on_conflict_statement (default VNone (kw_on_conflict_update kw)) h
    = (Ok oc, h) ->
  (exists cols exprs,
      fst (insert_status_changes_from src dest kw h)
      = Ok (rendered (default STATUS_CHANGES dest) cols exprs src oc)
      /\ length (fields cols) = length (fields exprs)
      /\ forall i c e,
           fields cols !! i = Some c -> fields exprs !! i = Some e ->
           Substring c e)
  /\ (exists cols exprs,
      fst (insert_trips_from src dest kw h)
      = Ok (rendered (default TRIPS dest) cols exprs src oc)
      /\ length (fields cols) = length (fields exprs)
      /\ forall i c e,
           fields cols !! i = Some c -> fields exprs !! i = Some e ->
           Substring c e).
Proof.
  intros Hh Hv Hu Hoc. split.
  - rewrite (insert_status_changes_from_run h src dest kw v oc Hh Hv Hu Hoc).
    exists (str_join "," (status_change_inserts v)),
           (str_join "," (status_change_selects v)).
    split; [reflexivity |].
    unfold status_change_inserts, status_change_selects.
    destruct (before_0_3_0 v); (split; [vm_compute; reflexivity |]);
      intros i c e Hc He; apply is_substring_sound;
      refine (all2_lookup is_substring _ _ _ i c e Hc He);
      vm_compute; reflexivity.
  - rewrite (insert_trips_from_run h src dest kw v oc Hh Hv Hu Hoc).
    exists (str_join "," (trip_inserts v)), (str_join "," (trip_selects v)).
    split; [reflexivity |].
    unfold trip_inserts, trip_selects.
    destruct (before_0_3_0 v); (split; [vm_compute; reflexivity |]);
      intros i c e Hc He; apply is_substring_sound;
      refine (all2_lookup is_substring _ _ _ i c e Hc He);
      vm_compute; reflexivity.
Qed.

(** X10: in the statement a builder returns, a column whose name ends in
    [_time] is read as seconds, [to_timestamp(col) at time zone 'UTC'],
    for a version below 0.3.0 and as milliseconds,
    [to_timestamp(cast(col as double precision) / 1000.0) at time zone 'UTC'],
    otherwise; no other column goes through [to_timestamp]. *)
Theorem time_columns_by_era (h : heap) src dest kw v oc :
  module_intact h ->
  Version_new (default (VersionObj mds_lower) (kw_version kw)) = Ok v ->
  unsupported v = false ->
  on_conflict_statement (default VNone (kw_on_conflict_update kw)) h
    = (Ok oc, h) ->
  (exists cols exprs,
      fst (insert_status_changes_from src dest kw h)
      = Ok (rendered (default STATUS_CHANGES dest) cols exprs src oc)
      /\ forall i c e,
           fields cols !! i = Some c -> fields exprs !! i = Some e ->
           if ends_with "_time" c
           then e = (if Version_lt v (mkVersion 0 3 0)
                     then seconds_expr c else millis_expr c)
           else is_substring "to_timestamp" e = false)
  /\ (exists cols exprs,
      fst (insert_trips_from src dest kw h)
      = Ok (rendered (default TRIPS dest) cols exprs src oc)
      /\ forall i c e,
           fields cols !! i = Some c -> fields exprs !! i = Some e ->
           if ends_with "_time" c
           then e = (if Version_lt v (mkVersion 0 3 0)
                     then seconds_expr c else millis_expr c)
           else is_substring "to_timestamp" e = false).
Proof.
  intros Hh Hv Hu Hoc.
  assert (R : forall b cols exprs,
             all2 (time_rule b) cols exprs = true ->
             forall i c e, cols !! i = Some c -> exprs !! i = Some e ->
               if ends_with "_time" c
               then e = (if b then seconds_expr c else millis_expr c)
               else is_substring "to_timestamp" e = false).
  { intros b cols exprs A i c e Hc He.
    pose proof (all2_lookup _ _ _ A i c e Hc He) as T.
    unfold time_rule in T. destruct (ends_with "_time" c).
    - now apply String.eqb_eq.
    - now apply Bool.negb_true_iff. }
  split.
  - rewrite (insert_status_changes_from_run h src dest kw v oc Hh Hv Hu Hoc).
    exists (str_join "," (status_change_inserts v)),
           (str_join "," (status_change_selects v)).
    split; [reflexivity |].
    unfold status_change_inserts, status_change_selects, before_0_3_0.
    destruct (Version_lt v (mkVersion 0 3 0));
      [apply (R true) | apply (R false)]; vm_compute; reflexivity.
  - rewrite (insert_trips_from_run h src dest kw v oc Hh Hv Hu Hoc).
    exists (str_join "," (trip_inserts v)), (str_join "," (trip_selects v)).
    split; [reflexivity |].
    unfold trip_inserts, trip_selects, before_0_3_0.
    destruct (Version_lt v (mkVersion 0 3 0));
      [apply (R true) | apply (R false)]; vm_compute; reflexivity.
Qed.

(** X11: the two lists a successful call builds begin with the elements
    of the module-level lists, in their order; what the call adds comes
    after them. *)
Theorem built_lists_start_with_module_lists (h : heap) src dest kw v oc :
  module_intact h ->
  Version_new (default (VersionObj mds_lower) (kw_version kw)) = Ok v ->
  unsupported v = false ->
  on_conflict_statement (default VNone (kw_on_conflict_update kw)) h
    = (Ok oc, h) ->
  (exists more_inserts more_selects : list string,
      snd (insert_status_changes_from src dest kw h)
      = (h ++ [(COMMON_INSERTS_init ++ more_inserts)%list;
               (COMMON_SELECTS_init ++ more_selects)%list])%list)
  /\ (exists more_inserts more_selects : list string,
      snd (insert_trips_from src dest kw h)
      = (h ++ [(COMMON_INSERTS_init ++ more_inserts)%list;
               (COMMON_SELECTS_init ++ more_selects)%list])%list).
Proof.
  intros Hh Hv Hu Hoc. split.
  - rewrite (insert_status_changes_from_run h src dest kw v oc Hh Hv Hu Hoc).
    unfold status_change_inserts, status_change_selects.
    do 2 eexists. reflexivity.
  - rewrite (insert_trips_from_run h src dest kw v oc Hh Hv Hu Hoc).
    unfold trip_inserts, trip_selects.
    do 2 eexists. reflexivity.
Qed.

(** X12: for supported versions [v1] below 0.3.0 and [v2] not below it,
    the columns of the trip statement built with [v2] are those of the
    statement built with [v1] followed by [publication_time]. *)
Theorem trips_gain_publication_time
    (h : heap) src dest (directive : option value) v1 v2 oc :
  module_intact h ->
  unsupported v1 = false ->
  unsupported v2 = false ->
  Version_lt v1 (mkVersion 0 3 0) = true ->
  Version_lt v2 (mkVersion 0 3 0) = false ->
  on_conflict_statement (default VNone directive) h = (Ok oc, h) ->
  exists cols exprs1 exprs2,
    fst (insert_trips_from src dest
           (mkKwargs (Some (VersionObj v1)) directive) h)
    = Ok (rendered (default TRIPS dest) cols exprs1 src oc)
    /\ fst (insert_trips_from src dest
              (mkKwargs (Some (VersionObj v2)) directive) h)
       = Ok (rendered (default TRIPS dest)
               (cols ++ ",publication_time") exprs2 src oc).
Proof.
  intros Hh Hu1 Hu2 Hb1 Hb2 Hoc.
  rewrite (insert_trips_from_run h src dest
             (mkKwargs (Some (VersionObj v1)) directive) v1 oc
             Hh eq_refl Hu1 Hoc),
    (insert_trips_from_run h src dest
       (mkKwargs (Some (VersionObj v2)) directive) v2 oc
       Hh eq_refl Hu2 Hoc).
  unfold trip_inserts, before_0_3_0. rewrite Hb1, Hb2.
  do 3 eexists. split; reflexivity.
Qed.

End Sql.

(** ** The builders at concrete inputs

    The release range is 0.2.0 up to 0.5.0, the lowest supported version
    0.2.0, and the store is the one the import of the module leaves. *)

Lemma module_heap_intact : module_intact module_heap.
Proof. split; reflexivity. Defined.

Lemma column_lists_are_misaligned_witness :
  (exists inserts selects : list string,
      snd (insert_status_changes_from (outside_range v0_2_0 v0_5_0) v0_2_0
             opaque_str "stage_trips" None
             (mkKwargs (Some (VersionStr "0.2.1")) None) module_heap)
      = (module_heap ++ [inserts; selects])%list
      /\ length inserts = S (length selects)
      /\ inserts !! 3 = Some "vehicle_id"
      /\ selects !! 3 = Some "vehicle_id,cast(vehicle_type as vehicle_types)"
      /\ inserts !! 4 = Some "vehicle_type"
      /\ selects !! 4 = Some "cast(propulsion_type as propulsion_types[])")
  /\ (exists inserts selects : list string,
      snd (insert_trips_from (outside_range v0_2_0 v0_5_0) v0_2_0
             opaque_str "stage_trips" None
             (mkKwargs (Some (VersionStr "0.2.1")) None) module_heap)
      = (module_heap ++ [inserts; selects])%list
      /\ length inserts = (3 + length selects)%nat
      /\ inserts !! 11 = Some "parking_verification_url"
      /\ selects !! 10
         = Some "parking_verification_url,standard_cost,actual_cost").
Proof.
  exact (column_lists_are_misaligned (outside_range v0_2_0 v0_5_0) v0_2_0
           opaque_str module_heap "stage_trips" None
           (mkKwargs (Some (VersionStr "0.2.1")) None) (mkVersion 0 2 1)
           "ON CONFLICT DO NOTHING"
           module_heap_intact eq_refl eq_refl eq_refl).
Defined.

Lemma unsupported_version_is_refused_witness :
  insert_status_changes_from (outside_range v0_2_0 v0_5_0) v0_2_0 opaque_str
    "stage" None (mkKwargs (Some (VersionStr "0.5.0")) None) module_heap
    = (Raise (UnsupportedVersionError (mkVersion 0 5 0)), module_heap)
  /\ insert_trips_from (outside_range v0_2_0 v0_5_0) v0_2_0 opaque_str
    "stage" None (mkKwargs (Some (VersionStr "0.5.0")) None) module_heap
    = (Raise (UnsupportedVersionError (mkVersion 0 5 0)), module_heap).
Proof.
  exact (unsupported_version_is_refused (outside_range v0_2_0 v0_5_0) v0_2_0
           opaque_str module_heap "stage" None
           (mkKwargs (Some (VersionStr "0.5.0")) None) (mkVersion 0 5 0)
           eq_refl eq_refl).
Defined.

Lemma status_changes_across_0_3_0_witness :
  (exists cols exprs i,
      fst (insert_status_changes_from (outside_range v0_2_0 v0_5_0) v0_2_0
             opaque_str "stage" None
             (mkKwargs (Some (VersionObj (mkVersion 0 2 1))) None) module_heap)
      = Ok (rendered "status_changes" cols exprs "stage"
              "ON CONFLICT DO NOTHING")
      /\ fields cols !! i = Some "associated_trips"
      /\ fields exprs !! i = Some "cast(associated_trips as uuid[])"
      /\ ~ In "publication_time" (fields cols))
  /\ (exists cols exprs i j,
      fst (insert_status_changes_from (outside_range v0_2_0 v0_5_0) v0_2_0
             opaque_str "stage" None
             (mkKwargs (Some (VersionObj (mkVersion 0 3 1))) None) module_heap)
      = Ok (rendered "status_changes" cols exprs "stage"
              "ON CONFLICT DO NOTHING")
      /\ fields cols !! i = Some "associated_trip"
      /\ fields exprs !! i = Some "cast(associated_trip as uuid)"
      /\ fields cols !! j = Some "publication_time"
      /\ fields exprs !! j
         = Some "to_timestamp(cast(publication_time as double precision) / 1000.0) at time zone 'UTC'").
Proof.
  exact (status_changes_across_0_3_0 (outside_range v0_2_0 v0_5_0) v0_2_0
           opaque_str module_heap "stage" None None
           (mkVersion 0 2 1) (mkVersion 0 3 1) "ON CONFLICT DO NOTHING"
           module_heap_intact eq_refl eq_refl eq_refl eq_refl eq_refl).
Defined.

Lemma trips_0_2_1_and_0_4_0_witness :
  (exists cols exprs front i,
      fst (insert_trips_from (outside_range v0_2_0 v0_5_0) v0_2_0 opaque_str
             "stage_trips" None
             (mkKwargs (Some (VersionStr "0.2.1")) None) module_heap)
      = Ok (rendered "trips" cols exprs "stage_trips" "ON CONFLICT DO NOTHING")
      /\ fields cols = (front ++ ["start_time"; "end_time"])%list
      /\ ~ In "publication_time" (fields cols)
      /\ fields cols !! i = Some "start_time"
      /\ fields exprs !! i = Some "to_timestamp(start_time) at time zone 'UTC'")
  /\ (exists cols exprs front i,
      fst (insert_trips_from (outside_range v0_2_0 v0_5_0) v0_2_0 opaque_str
             "stage_trips" None
             (mkKwargs (Some (VersionStr "0.4.0")) None) module_heap)
      = Ok (rendered "trips" cols exprs "stage_trips" "ON CONFLICT DO NOTHING")
      /\ fields cols
         = (front ++ ["start_time"; "end_time"; "publication_time"])%list
      /\ fields cols !! i = Some "start_time"
      /\ fields exprs !! i
         = Some "to_timestamp(cast(start_time as double precision) / 1000.0) at time zone 'UTC'").
Proof.
  exact (trips_0_2_1_and_0_4_0 (outside_range v0_2_0 v0_5_0) v0_2_0
           opaque_str module_heap module_heap_intact eq_refl eq_refl).
Defined.

Lemma on_conflict_default_witness :
  on_conflict_statement opaque_str VNone module_heap
    = (Ok "ON CONFLICT DO NOTHING", module_heap)
  /\ (exists stmt,
        fst (insert_status_changes_from (outside_range v0_2_0 v0_5_0) v0_2_0
               opaque_str "stage" (Some "status_changes_copy")
               (mkKwargs None (Some VNone)) module_heap) = Ok stmt
        /\ Substring "ON CONFLICT DO NOTHING" stmt)
  /\ (exists stmt,
        fst (insert_trips_from (outside_range v0_2_0 v0_5_0) v0_2_0
               opaque_str "stage" (Some "status_changes_copy")
               (mkKwargs None (Some VNone)) module_heap) = Ok stmt
        /\ Substring "ON CONFLICT DO NOTHING" stmt).
Proof.
  exact (on_conflict_default (outside_range v0_2_0 v0_5_0) v0_2_0 opaque_str
           module_heap "stage" (Some "status_changes_copy")
           (mkKwargs None (Some VNone)) v0_2_0
           module_heap_intact eq_refl eq_refl eq_refl).
Defined.

Lemma statement_shape_witness :
  blank layout = true
  /\ (exists inserts selects,
        insert_status_changes_from (outside_range v0_2_0 v0_5_0) v0_2_0
          opaque_str "stage" None
          (mkKwargs (Some (VersionStr "0.3.0"))
             (Some (VTuple [VStr "(provider_id, device_id)";
                            VList [VStr "battery_pct = EXCLUDED.battery_pct"]])))
          module_heap
        = (Ok (layout
               ++ statement_template layout "status_changes"
                    (str_join "," inserts) (str_join "," selects) "stage"
                    "ON CONFLICT (provider_id, device_id) DO UPDATE SET battery_pct = EXCLUDED.battery_pct"
               ++ layout),
           (module_heap ++ [inserts; selects])%list))
  /\ (exists inserts selects,
        insert_trips_from (outside_range v0_2_0 v0_5_0) v0_2_0
          opaque_str "stage" None
          (mkKwargs (Some (VersionStr "0.3.0"))
             (Some (VTuple [VStr "(provider_id, device_id)";
                            VList [VStr "battery_pct = EXCLUDED.battery_pct"]])))
          module_heap
        = (Ok (layout
               ++ statement_template layout "trips"
                    (str_join "," inserts) (str_join "," selects) "stage"
                    "ON CONFLICT (provider_id, device_id) DO UPDATE SET battery_pct = EXCLUDED.battery_pct"
               ++ layout),
           (module_heap ++ [inserts; selects])%list)).
Proof.
  exact (statement_shape (outside_range v0_2_0 v0_5_0) v0_2_0 opaque_str
           module_heap "stage" None
           (mkKwargs (Some (VersionStr "0.3.0"))
              (Some (VTuple [VStr "(provider_id, device_id)";
                             VList [VStr "battery_pct = EXCLUDED.battery_pct"]])))
           (mkVersion 0 3 0)
           "ON CONFLICT (provider_id, device_id) DO UPDATE SET battery_pct = EXCLUDED.battery_pct"
           module_heap_intact eq_refl eq_refl eq_refl).
Defined.

Lemma module_lists_are_preserved_witness :
  module_intact
    (snd (insert_status_changes_from (outside_range v0_2_0 v0_5_0) v0_2_0
            opaque_str "stage" None no_kwargs module_heap))
  /\ module_intact
    (snd (insert_trips_from (outside_range v0_2_0 v0_5_0) v0_2_0
            opaque_str "stage" None no_kwargs module_heap))
  /\ module_intact
    (snd (on_conflict_statement opaque_str
            (VTuple [VStr "(device_id)"; VStr "battery_pct = 0"]) module_heap)).
Proof.
  exact (module_lists_are_preserved (outside_range v0_2_0 v0_5_0) v0_2_0
           opaque_str module_heap "stage" None no_kwargs
           (VTuple [VStr "(device_id)"; VStr "battery_pct = 0"])
           module_heap_intact).
Defined.

Lemma calls_are_deterministic_witness :
  fst (insert_status_changes_from (outside_range v0_2_0 v0_5_0) v0_2_0
         opaque_str "stage" None no_kwargs module_heap)
    = fst (insert_status_changes_from (outside_range v0_2_0 v0_5_0) v0_2_0
             opaque_str "stage" None no_kwargs (module_heap ++ [["x"]])%list)
  /\ fst (insert_trips_from (outside_range v0_2_0 v0_5_0) v0_2_0
            opaque_str "stage" None no_kwargs module_heap)
    = fst (insert_trips_from (outside_range v0_2_0 v0_5_0) v0_2_0
             opaque_str "stage" None no_kwargs (module_heap ++ [["x"]])%list)
  /\ fst (on_conflict_statement opaque_str VNone module_heap)
    = fst (on_conflict_statement opaque_str VNone (module_heap ++ [["x"]])%list)
  /\ fst (insert_status_changes_from (outside_range v0_2_0 v0_5_0) v0_2_0
            opaque_str "stage" None no_kwargs
            (snd (insert_status_changes_from (outside_range v0_2_0 v0_5_0)
                    v0_2_0 opaque_str "stage" None no_kwargs module_heap)))
    = fst (insert_status_changes_from (outside_range v0_2_0 v0_5_0) v0_2_0
             opaque_str "stage" None no_kwargs module_heap)
  /\ fst (insert_trips_from (outside_range v0_2_0 v0_5_0) v0_2_0
            opaque_str "stage" None no_kwargs
            (snd (insert_trips_from (outside_range v0_2_0 v0_5_0)
                    v0_2_0 opaque_str "stage" None no_kwargs module_heap)))
    = fst (insert_trips_from (outside_range v0_2_0 v0_5_0) v0_2_0
             opaque_str "stage" None no_kwargs module_heap)
  /\ fst (on_conflict_statement opaque_str VNone
            (snd (on_conflict_statement opaque_str VNone module_heap)))
    = fst (on_conflict_statement opaque_str VNone module_heap).
Proof.
  exact (calls_are_deterministic (outside_range v0_2_0 v0_5_0) v0_2_0
           opaque_str module_heap (module_heap ++ [["x"]])%list
           "stage" None no_kwargs VNone
           module_heap_intact
           (module_intact_grow module_heap [["x"]] module_heap_intact)).
Defined.

Lemma on_conflict_statement_not_a_tuple_witness :
  on_conflict_statement opaque_str
    (VDict [(VStr "battery_pct", VStr "EXCLUDED.battery_pct")]) module_heap
  = (Ok "ON CONFLICT DO NOTHING", module_heap).
Proof.
  exact (on_conflict_statement_not_a_tuple opaque_str module_heap
           (VDict [(VStr "battery_pct", VStr "EXCLUDED.battery_pct")])
           eq_refl eq_refl).
Defined.

Lemma tuple_of_wrong_length_raises_witness :
  on_conflict_statement opaque_str
    (VTuple [VStr "(device_id)"; VStr "battery_pct = 0"; VStr "extra"])
    module_heap
  = (Raise ValueError, module_heap)
  /\ insert_status_changes_from (outside_range v0_2_0 v0_5_0) v0_2_0
       opaque_str "stage" None
       (mkKwargs None
          (Some (VTuple [VStr "(device_id)"; VStr "battery_pct = 0";
                         VStr "extra"])))
       module_heap
     = (Raise ValueError, module_heap)
  /\ insert_trips_from (outside_range v0_2_0 v0_5_0) v0_2_0
       opaque_str "stage" None
       (mkKwargs None
          (Some (VTuple [VStr "(device_id)"; VStr "battery_pct = 0";
                         VStr "extra"])))
       module_heap
     = (Raise ValueError, module_heap).
Proof.
  apply (tuple_of_wrong_length_raises (outside_range v0_2_0 v0_5_0) v0_2_0
           opaque_str module_heap "stage" None
           (mkKwargs None
              (Some (VTuple [VStr "(device_id)"; VStr "battery_pct = 0";
                             VStr "extra"])))
           v0_2_0);
    [reflexivity | reflexivity | reflexivity | discriminate | discriminate].
Defined.

Lemma on_conflict_statement_errors_witness :
  exists items,
    VTuple [VStr "(device_id)"] = VTuple items /\ items <> []
    /\ ((length items <> 2 /\ ValueError = ValueError)
        \/ (exists condition frags,
              items = [condition; VList frags]
              /\ forallb is_str frags = false /\ ValueError = TypeError)).
Proof.
  exact (on_conflict_statement_errors opaque_str module_heap
           (VTuple [VStr "(device_id)"]) ValueError eq_refl).
Defined.

Lemma on_conflict_statement_prefix_witness :
  String.prefix "ON CONFLICT "
    "ON CONFLICT (device_id) DO UPDATE SET battery_pct = 0" = true.
Proof.
  exact (on_conflict_statement_prefix opaque_str module_heap module_heap
           (VTuple [VStr "(device_id)"; VStr "battery_pct = 0"])
           "ON CONFLICT (device_id) DO UPDATE SET battery_pct = 0" eq_refl).
Defined.

Lemma builder_errors_witness :
  Version_new (default (VersionObj v0_2_0)
                 (kw_version (mkKwargs (Some (VersionStr "0.5.0")) None)))
    = Raise (UnsupportedVersionError (mkVersion 0 5 0))
  \/ (exists v,
        Version_new (default (VersionObj v0_2_0)
                       (kw_version (mkKwargs (Some (VersionStr "0.5.0")) None)))
          = Ok v
        /\ outside_range v0_2_0 v0_5_0 v = true
        /\ UnsupportedVersionError (mkVersion 0 5 0)
           = UnsupportedVersionError v)
  \/ (exists v,
        Version_new (default (VersionObj v0_2_0)
                       (kw_version (mkKwargs (Some (VersionStr "0.5.0")) None)))
          = Ok v
        /\ outside_range v0_2_0 v0_5_0 v = false
        /\ fst (on_conflict_statement opaque_str
                  (default VNone
                     (kw_on_conflict_update
                        (mkKwargs (Some (VersionStr "0.5.0")) None)))
                  module_heap)
           = Raise (UnsupportedVersionError (mkVersion 0 5 0))).
Proof.
  exact (builder_errors (outside_range v0_2_0 v0_5_0) v0_2_0 opaque_str
           module_heap "stage" None
           (mkKwargs (Some (VersionStr "0.5.0")) None)
           (UnsupportedVersionError (mkVersion 0 5 0))
           module_heap_intact (or_introl eq_refl)).
Defined.

Lemma builder_store_effect_witness :
  ((exists stmt inserts selects,
       insert_status_changes_from (outside_range v0_2_0 v0_5_0) v0_2_0
         opaque_str "stage" None no_kwargs module_heap
       = (Ok stmt, (module_heap ++ [inserts; selects])%list))
   \/ (exists e,
         insert_status_changes_from (outside_range v0_2_0 v0_5_0) v0_2_0
           opaque_str "stage" None no_kwargs module_heap
         = (Raise e, module_heap)))
  /\ ((exists stmt inserts selects,
         insert_trips_from (outside_range v0_2_0 v0_5_0) v0_2_0
           opaque_str "stage" None no_kwargs module_heap
         = (Ok stmt, (module_heap ++ [inserts; selects])%list))
      \/ (exists e,
            insert_trips_from (outside_range v0_2_0 v0_5_0) v0_2_0
              opaque_str "stage" None no_kwargs module_heap
            = (Raise e, module_heap))).
Proof.
  exact (builder_store_effect (outside_range v0_2_0 v0_5_0) v0_2_0 opaque_str
           module_heap "stage" None no_kwargs module_heap_intact).
Defined.

Lemma same_era_same_statement_witness :
  insert_status_changes_from (outside_range v0_2_0 v0_5_0) v0_2_0 opaque_str
    "stage" None (mkKwargs (Some (VersionObj (mkVersion 0 3 0))) None)
    module_heap
  = insert_status_changes_from (outside_range v0_2_0 v0_5_0) v0_2_0 opaque_str
      "stage" None (mkKwargs (Some (VersionObj (mkVersion 0 4 1))) None)
      module_heap
  /\ insert_trips_from (outside_range v0_2_0 v0_5_0) v0_2_0 opaque_str
       "stage" None (mkKwargs (Some (VersionObj (mkVersion 0 3 0))) None)
       module_heap
     = insert_trips_from (outside_range v0_2_0 v0_5_0) v0_2_0 opaque_str
         "stage" None (mkKwargs (Some (VersionObj (mkVersion 0 4 1))) None)
         module_heap.
Proof.
  exact (same_era_same_statement (outside_range v0_2_0 v0_5_0) v0_2_0
           opaque_str module_heap "stage" None None
           (mkVersion 0 3 0) (mkVersion 0 4 1)
           module_heap_intact eq_refl eq_refl eq_refl).
Defined.

Lemma joined_columns_line_up_witness :
  (exists cols exprs,
      fst (insert_status_changes_from (outside_range v0_2_0 v0_5_0) v0_2_0
             opaque_str "stage" None no_kwargs module_heap)
      = Ok (rendered "status_changes" cols exprs "stage"
              "ON CONFLICT DO NOTHING")
      /\ length (fields cols) = length (fields exprs)
      /\ forall i c e,
           fields cols !! i = Some c -> fields exprs !! i = Some e ->
           Substring c e)
  /\ (exists cols exprs,
      fst (insert_trips_from (outside_range v0_2_0 v0_5_0) v0_2_0
             opaque_str "stage" None no_kwargs module_heap)
      = Ok (rendered "trips" cols exprs "stage" "ON CONFLICT DO NOTHING")
      /\ length (fields cols) = length (fields exprs)
      /\ forall i c e,
           fields cols !! i = Some c -> fields exprs !! i = Some e ->
           Substring c e).
Proof.
  exact (joined_columns_line_up (outside_range v0_2_0 v0_5_0) v0_2_0
           opaque_str module_heap "stage" None no_kwargs v0_2_0
           "ON CONFLICT DO NOTHING"
           module_heap_intact eq_refl eq_refl eq_refl).
Defined.

Lemma time_columns_by_era_witness :
  (exists cols exprs,
      fst (insert_status_changes_from (outside_range v0_2_0 v0_5_0) v0_2_0
             opaque_str "stage" None
             (mkKwargs (Some (VersionStr "0.4.0")) None) module_heap)
      = Ok (rendered "status_changes" cols exprs "stage"
              "ON CONFLICT DO NOTHING")
      /\ forall i c e,
           fields cols !! i = Some c -> fields exprs !! i = Some e ->
           if ends_with "_time" c
           then e = (if Version_lt (mkVersion 0 4 0) (mkVersion 0 3 0)
                     then seconds_expr c else millis_expr c)
           else is_substring "to_timestamp" e = false)
  /\ (exists cols exprs,
      fst (insert_trips_from (outside_range v0_2_0 v0_5_0) v0_2_0
             opaque_str "stage" None
             (mkKwargs (Some (VersionStr "0.4.0")) None) module_heap)
      = Ok (rendered "trips" cols exprs "stage" "ON CONFLICT DO NOTHING")
      /\ forall i c e,
           fields cols !! i = Some c -> fields exprs !! i = Some e ->
           if ends_with "_time" c
           then e = (if Version_lt (mkVersion 0 4 0) (mkVersion 0 3 0)
                     then seconds_expr c else millis_expr c)
           else is_substring "to_timestamp" e = false).
Proof.
  exact (time_columns_by_era (outside_range v0_2_0 v0_5_0) v0_2_0
           opaque_str module_heap "stage" None
           (mkKwargs (Some (VersionStr "0.4.0")) None) (mkVersion 0 4 0)
           "ON CONFLICT DO NOTHING"
           module_heap_intact eq_refl eq_refl eq_refl).
Defined.

Lemma built_lists_start_with_module_lists_witness :
  (exists more_inserts more_selects : list string,
      snd (insert_status_changes_from (outside_range v0_2_0 v0_5_0) v0_2_0
             opaque_str "stage" None no_kwargs module_heap)
      = (module_heap ++ [(COMMON_INSERTS_init ++ more_inserts)%list;
                         (COMMON_SELECTS_init ++ more_selects)%list])%list)
  /\ (exists more_inserts more_selects : list string,
      snd (insert_trips_from (outside_range v0_2_0 v0_5_0) v0_2_0
             opaque_str "stage" None no_kwargs module_heap)
      = (module_heap ++ [(COMMON_INSERTS_init ++ more_inserts)%list;
                         (COMMON_SELECTS_init ++ more_selects)%list])%list).
Proof.
  exact (built_lists_start_with_module_lists
           (outside_range v0_2_0 v0_5_0) v0_2_0 opaque_str
           module_heap "stage" None no_kwargs v0_2_0 "ON CONFLICT DO NOTHING"
           module_heap_intact eq_refl eq_refl eq_refl).
Defined.

Lemma trips_gain_publication_time_witness :
  exists cols exprs1 exprs2,
    fst (insert_trips_from (outside_range v0_2_0 v0_5_0) v0_2_0 opaque_str
           "stage" None (mkKwargs (Some (VersionObj (mkVersion 0 2 1))) None)
           module_heap)
    = Ok (rendered "trips" cols exprs1 "stage" "ON CONFLICT DO NOTHING")
    /\ fst (insert_trips_from (outside_range v0_2_0 v0_5_0) v0_2_0 opaque_str
              "stage" None
              (mkKwargs (Some (VersionObj (mkVersion 0 3 0))) None)
              module_heap)
       = Ok (rendered "trips" (cols ++ ",publication_time") exprs2 "stage"
               "ON CONFLICT DO NOTHING").
Proof.
  exact (trips_gain_publication_time (outside_range v0_2_0 v0_5_0) v0_2_0
           opaque_str module_heap "stage" None None
           (mkVersion 0 2 1) (mkVersion 0 3 0) "ON CONFLICT DO NOTHING"
           module_heap_intact eq_refl eq_refl eq_refl eq_refl eq_refl).
Defined.
